(** * tusb_config.h: resolution of the TinyUSB build configuration

    The program is a C header that contains nothing but preprocessor
    directives.  Its behaviour is the effect it has on the preprocessor's
    macro table: the table it is included with holds the macros predefined by
    the toolchain and the ones given on the command line ([-DNAME=value]);
    the table it leaves holds the resolved configuration.

    The embedding is shallow.  A directive is a function on the preprocessor
    state, the header is the composition of its directives in source order,
    and the theorems are about that function. *)

From Stdlib Require Import ZArith.
From stdpp Require Import gmap strings pretty list fin_maps.

Local Open Scope Z_scope.

(** ** Replacement lists *)

(** The replacement lists that occur in the header are integer constants,
    identifiers (names of macros of tusb_option.h, which stay symbolic here),
    one parenthesised conditional expression, one GCC attribute and the empty
    list.  Each of them stands for the list as the header spells it: a
    constant in decimal, the conditional with the blanks of line 90, the
    attribute with the blanks of line 54.  A list given from outside that is
    spelled in another way, or is none of these, is kept as its text
    ([RTokens], one blank for each white-space separation). *)
Inductive expr : Type :=
  | ENum (z : Z)
  | EId (s : string)
  | EParen (e : expr)
  | ECond (c t f : expr).

Inductive attribute : Type :=
  | aligned (n : Z)
  | section (s : string).

Inductive repl : Type :=
  | REmpty
  | RExpr (e : expr)
  | RAttr (a : attribute)
  | RTokens (text : string).

#[global] Instance expr_eq_dec : EqDecision expr.
Proof. solve_decision. Defined.
#[global] Instance attribute_eq_dec : EqDecision attribute.
Proof. solve_decision. Defined.
#[global] Instance repl_eq_dec : EqDecision repl.
Proof. solve_decision. Defined.

Definition num (z : Z) : repl := RExpr (ENum z).
Definition sym (s : string) : repl := RExpr (EId s).

(** The spelling of a replacement list: its preprocessing tokens and the
    places where white space separates them. *)
Definition quotation_mark : string :=
  String (Ascii.Ascii false true false false false true false false)
         EmptyString.

Fixpoint expr_spelling (e : expr) : string :=
  match e with
  | ENum z => pretty z
  | EId s => s
  | EParen e' => "(" +:+ expr_spelling e' +:+ ")"
  | ECond c t f =>
      expr_spelling c +:+ " ? " +:+ expr_spelling t +:+ " : " +:+
      expr_spelling f
  end.

Definition attribute_spelling (a : attribute) : string :=
  match a with
  | aligned n => "__attribute__ ((aligned(" +:+ pretty n +:+ ")))"
  | section s =>
      "__attribute__ (( section(" +:+ quotation_mark +:+ s +:+
      quotation_mark +:+ ") ))"
  end.

Definition spelling (r : repl) : string :=
  match r with
  | REmpty => EmptyString
  | RExpr e => expr_spelling e
  | RAttr a => attribute_spelling a
  | RTokens text => text
  end.

(** ** Preprocessor state *)

(** The only diagnostic the directives of this header can raise: a [#define]
    of a name that is already defined with a different replacement list,
    that is one that differs in the number, order or spelling of its tokens
    or in their white-space separation.  GCC reports it as a warning and the
    new definition takes effect. *)
Inductive diag : Type :=
  | Redefined (name : string).

#[global] Instance diag_eq_dec : EqDecision diag.
Proof. solve_decision. Defined.

Record cpp_state : Type := CppState {
  macros : gmap string repl;
  diags : list diag
}.

Definition initial_state : cpp_state := CppState ∅ [].

Definition directive : Type := cpp_state → cpp_state.

Definition seq (d1 d2 : directive) : directive := λ st, d2 (d1 st).
Infix ">>>" := seq (at level 61, left associativity).

Definition defined (n : string) (st : cpp_state) : bool :=
  bool_decide (is_Some (macros st !! n)).

(** What [#define n r] reports when the table holds [old] for [n]. *)
Definition redefinition (n : string) (r : repl) (old : option repl) : list diag :=
  match old with
  | Some r' => if decide (spelling r' = spelling r) then []
               else [Redefined n]
  | None => []
  end.

(** [#define n r] *)
Definition define (n : string) (r : repl) : directive := λ st,
  CppState (<[n := r]> (macros st))
           (diags st ++ redefinition n r (macros st !! n)).

(** [#ifndef n body #endif] *)
Definition ifndef (n : string) (body : directive) : directive := λ st,
  if defined n st then st else body st.

(** [#if defined(n) body #else orelse #endif]; an [#elif] chain nests in
    [orelse]. *)
Definition if_defined (n : string) (body orelse : directive) : directive := λ st,
  if defined n st then body st else orelse st.

(** ** Macro names *)

Definition _TUSB_CONFIG_H_ : string := "_TUSB_CONFIG_H_".

Definition ARDUINO_ARCH_SAMD : string := "ARDUINO_ARCH_SAMD".
Definition ARDUINO_ARCH_RP2040 : string := "ARDUINO_ARCH_RP2040".
Definition ARDUINO_ARCH_ESP32 : string := "ARDUINO_ARCH_ESP32".

Definition OPT_MCU_SAMD51 : string := "OPT_MCU_SAMD51".
Definition OPT_MCU_RP2040 : string := "OPT_MCU_RP2040".
Definition OPT_MCU_ESP32S2 : string := "OPT_MCU_ESP32S2".
Definition OPT_MCU_NONE : string := "OPT_MCU_NONE".
Definition OPT_OS_NONE : string := "OPT_OS_NONE".
Definition OPT_MODE_DEFAULT_SPEED : string := "OPT_MODE_DEFAULT_SPEED".

Definition CFG_TUSB_MCU : string := "CFG_TUSB_MCU".
Definition CFG_TUSB_OS : string := "CFG_TUSB_OS".
Definition CFG_TUSB_DEBUG : string := "CFG_TUSB_DEBUG".
Definition CFG_TUD_ENABLED : string := "CFG_TUD_ENABLED".
Definition CFG_TUH_ENABLED : string := "CFG_TUH_ENABLED".
Definition CFG_TUD_MAX_SPEED : string := "CFG_TUD_MAX_SPEED".
Definition CFG_TUSB_MEM_SECTION : string := "CFG_TUSB_MEM_SECTION".
Definition CFG_TUSB_MEM_ALIGN : string := "CFG_TUSB_MEM_ALIGN".
Definition CFG_TUD_ENDPOINT0_SIZE : string := "CFG_TUD_ENDPOINT0_SIZE".
Definition CFG_TUD_HID : string := "CFG_TUD_HID".
Definition CFG_TUD_CDC : string := "CFG_TUD_CDC".
Definition CFG_TUD_MSC : string := "CFG_TUD_MSC".
Definition CFG_TUD_MIDI : string := "CFG_TUD_MIDI".
Definition CFG_TUD_VENDOR : string := "CFG_TUD_VENDOR".
Definition CFG_TUD_HID_EP_BUFSIZE : string := "CFG_TUD_HID_EP_BUFSIZE".
Definition CFG_TUH_ENUMERATION_BUFSIZE : string := "CFG_TUH_ENUMERATION_BUFSIZE".
Definition CFG_TUH_HUB : string := "CFG_TUH_HUB".
Definition CFG_TUH_CDC : string := "CFG_TUH_CDC".
Definition CFG_TUH_HID : string := "CFG_TUH_HID".
Definition CFG_TUH_MSC : string := "CFG_TUH_MSC".
Definition CFG_TUH_VENDOR : string := "CFG_TUH_VENDOR".
Definition CFG_TUH_DEVICE_MAX : string := "CFG_TUH_DEVICE_MAX".

(** ** The header *)

(** Lines 13-23. *)
Definition mcu_block : directive :=
  ifndef CFG_TUSB_MCU
    (if_defined ARDUINO_ARCH_SAMD
       (define CFG_TUSB_MCU (sym OPT_MCU_SAMD51))
    (if_defined ARDUINO_ARCH_RP2040
       (define CFG_TUSB_MCU (sym OPT_MCU_RP2040))
    (if_defined ARDUINO_ARCH_ESP32
       (define CFG_TUSB_MCU (sym OPT_MCU_ESP32S2))
       (define CFG_TUSB_MCU (sym OPT_MCU_NONE))))).

(** Lines 8-55, "COMMON CONFIGURATION". *)
Definition common_configuration : directive :=
  mcu_block >>>
  ifndef CFG_TUSB_OS (define CFG_TUSB_OS (sym OPT_OS_NONE)) >>>
  ifndef CFG_TUSB_DEBUG (define CFG_TUSB_DEBUG (num 0)) >>>
  define CFG_TUD_ENABLED (num 1) >>>
  define CFG_TUH_ENABLED (num 1) >>>
  define CFG_TUD_MAX_SPEED (sym OPT_MODE_DEFAULT_SPEED) >>>
  ifndef CFG_TUSB_MEM_SECTION (define CFG_TUSB_MEM_SECTION REmpty) >>>
  ifndef CFG_TUSB_MEM_ALIGN (define CFG_TUSB_MEM_ALIGN (RAttr (aligned 4))).

(** Lines 57-74, "DEVICE CONFIGURATION". *)
Definition device_configuration : directive :=
  ifndef CFG_TUD_ENDPOINT0_SIZE (define CFG_TUD_ENDPOINT0_SIZE (num 64)) >>>
  define CFG_TUD_HID (num 3) >>>
  define CFG_TUD_CDC (num 0) >>>
  define CFG_TUD_MSC (num 0) >>>
  define CFG_TUD_MIDI (num 0) >>>
  define CFG_TUD_VENDOR (num 0) >>>
  define CFG_TUD_HID_EP_BUFSIZE (num 64).

(** The replacement list of line 90: [(CFG_TUH_HUB ? 4 : 1)]. *)
Definition CFG_TUH_DEVICE_MAX_repl : repl :=
  RExpr (EParen (ECond (EId CFG_TUH_HUB) (ENum 4) (ENum 1))).

(** Lines 76-90, "HOST CONFIGURATION". *)
Definition host_configuration : directive :=
  define CFG_TUH_ENUMERATION_BUFSIZE (num 256) >>>
  define CFG_TUH_HUB (num 0) >>>
  define CFG_TUH_CDC (num 0) >>>
  define CFG_TUH_HID (num 4) >>>
  define CFG_TUH_MSC (num 0) >>>
  define CFG_TUH_VENDOR (num 0) >>>
  define CFG_TUH_DEVICE_MAX CFG_TUH_DEVICE_MAX_repl.

(** The whole file, under its include guard (lines 1-2 and 96).  The
    [extern "C"] lines under [__cplusplus] are program text: they define no
    macro and raise no diagnostic. *)
Definition tusb_config_h : directive :=
  ifndef _TUSB_CONFIG_H_
    (define _TUSB_CONFIG_H_ REmpty >>>
     common_configuration >>>
     device_configuration >>>
     host_configuration).

(** ** Use of a resolved constant in a C expression *)

(** The value of the integer constant [z].  Constants are not negative, and
    the compiler reads them at the 64 bits of its widest integer type: what
    does not fit is cut to the low 64 bits. *)
Definition integer_constant (z : Z) : option Z :=
  if bool_decide (0 ≤ z) then Some (z mod 2 ^ 64) else None.

(** Macro expansion followed by constant evaluation.  [hide] holds the names
    under expansion, which are not expanded again; a name that is not a macro
    or not an expression has no value known here.  [fuel] bounds the depth. *)
Fixpoint eval (fuel : nat) (env : gmap string repl) (hide : list string)
    (e : expr) : option Z :=
  match fuel with
  | O => None
  | S fuel' =>
      match e with
      | ENum z => integer_constant z
      | EId s =>
          if bool_decide (s ∈ hide) then None
          else match env !! s with
               | Some (RExpr e') => eval fuel' env (s :: hide) e'
               | _ => None
               end
      | EParen e' => eval fuel' env hide e'
      | ECond c t f =>
          match eval fuel' env hide c with
          | Some v => if Z.eqb v 0 then eval fuel' env hide f
                      else eval fuel' env hide t
          | None => None
          end
      end
  end.

(** The value a consumer reads for [name] in state [st]. *)
Definition value_of (fuel : nat) (st : cpp_state) (name : string) : option Z :=
  eval fuel (macros st) [] (EId name).

(** The state is one where the header has not been included yet. *)
Definition first_inclusion (st : cpp_state) : Prop :=
  macros st !! _TUSB_CONFIG_H_ = None.

(** The names the header leaves defined when nothing was defined before. *)
Definition header_defines : gset string :=
  dom (macros (tusb_config_h initial_state)).

(** The alignment, in bytes, that the resolved CFG_TUSB_MEM_ALIGN asks for. *)
Definition alignment_of (st : cpp_state) : option Z :=
  match macros st !! CFG_TUSB_MEM_ALIGN with
  | Some (RAttr (aligned n)) => Some n
  | _ => None
  end.

(** ** Tables read off the header, used to state the theorems *)

(** The platform hints of lines 14-18, in source order. *)
Definition hints : list string :=
  [ARDUINO_ARCH_SAMD; ARDUINO_ARCH_RP2040; ARDUINO_ARCH_ESP32].

Definition hints_defined (env : gmap string repl) : list string :=
  filter (λ h, is_Some (env !! h)) hints.

(** The profile the hint cascade of lines 14-22 selects in table [env]. *)
Definition hint_profile (env : gmap string repl) : string :=
  if bool_decide (is_Some (env !! ARDUINO_ARCH_SAMD)) then OPT_MCU_SAMD51
  else if bool_decide (is_Some (env !! ARDUINO_ARCH_RP2040)) then OPT_MCU_RP2040
  else if bool_decide (is_Some (env !! ARDUINO_ARCH_ESP32)) then OPT_MCU_ESP32S2
  else OPT_MCU_NONE.

(** The constants the header defines unconditionally, in source order. *)
Definition fixed_table : list (string * repl) :=
  [ (CFG_TUD_ENABLED, num 1);
    (CFG_TUH_ENABLED, num 1);
    (CFG_TUD_MAX_SPEED, sym OPT_MODE_DEFAULT_SPEED);
    (CFG_TUD_HID, num 3);
    (CFG_TUD_CDC, num 0);
    (CFG_TUD_MSC, num 0);
    (CFG_TUD_MIDI, num 0);
    (CFG_TUD_VENDOR, num 0);
    (CFG_TUD_HID_EP_BUFSIZE, num 64);
    (CFG_TUH_ENUMERATION_BUFSIZE, num 256);
    (CFG_TUH_HUB, num 0);
    (CFG_TUH_CDC, num 0);
    (CFG_TUH_HID, num 4);
    (CFG_TUH_MSC, num 0);
    (CFG_TUH_VENDOR, num 0);
    (CFG_TUH_DEVICE_MAX, CFG_TUH_DEVICE_MAX_repl) ].

(** The constants defined under a plain [#ifndef], with their defaults. *)
Definition default_table : list (string * repl) :=
  [ (CFG_TUSB_OS, sym OPT_OS_NONE);
    (CFG_TUSB_DEBUG, num 0);
    (CFG_TUSB_MEM_SECTION, REmpty);
    (CFG_TUSB_MEM_ALIGN, RAttr (aligned 4));
    (CFG_TUD_ENDPOINT0_SIZE, num 64) ].

(** The options that sit under an [#ifndef] of their own name. *)
Definition overridable : list string :=
  CFG_TUSB_MCU :: default_table.*1.

(** All names the header has a [#define] for. *)
Definition header_names : list string :=
  _TUSB_CONFIG_H_ :: overridable ++ fixed_table.*1.

(** The redefinition warnings the unconditional [#define]s raise against the
    table the header is included with. *)
Definition fixed_redefinitions (env : gmap string repl) : list diag :=
  flat_map (λ nr, redefinition nr.1 nr.2 (env !! nr.1)) fixed_table.

(** ** Ambiguous platform hints *)

(** More than one hint is defined and the MCU is not given from outside. *)
Definition hint_conflict (st : cpp_state) : Prop :=
  (1 < length (hints_defined (macros st)))%nat ∧
  macros st !! CFG_TUSB_MCU = None.

(** Including the header in [st] raises a diagnostic. *)
Definition raises_diagnostic (st : cpp_state) : Prop :=
  diags (tusb_config_h st) ≠ diags st.

(** A build for SAMD in which the RP2040 hint is set as well. *)
Definition two_hints_state : cpp_state :=
  CppState {[ ARDUINO_ARCH_SAMD := num 1; ARDUINO_ARCH_RP2040 := num 1 ]} [].

(** ** The interface list *)

Inductive class_family : Type := HID | CDC | MSC | MIDI | VENDOR.

Definition class_families : list class_family := [HID; CDC; MSC; MIDI; VENDOR].

Definition family_name (f : class_family) : string :=
  match f with
  | HID => "HID" | CDC => "CDC" | MSC => "MSC" | MIDI => "MIDI"
  | VENDOR => "VENDOR"
  end.

(** TinyUSB's name of the count limit of a class: CFG_TUD_<class> for the
    device role, CFG_TUH_<class> for the host role. *)
Definition device_class_count (f : class_family) : string :=
  String.append "CFG_TUD_" (family_name f).
Definition host_class_count (f : class_family) : string :=
  String.append "CFG_TUH_" (family_name f).

(** The kinds of constant of the interface list. *)
Inductive interface_entry : Type :=
  | IdentityOption
  | RoleFlag
  | MemoryOption
  | DeviceEndpoint0Size
  | DeviceClassCount (f : class_family)
  | DeviceClassBufsize
  | HostEnumerationBufsize
  | HostHubCount
  | HostClassCount (f : class_family)
  | HostDeviceCapacity.

(** The interface list as the specification words it (section 6), entry by
    entry: which name is which kind of entry.  A class count is listed for
    every class family in either role, whether or not the header defines
    it. *)
Definition interface_table : list (string * interface_entry) :=
  [ (CFG_TUSB_MCU, IdentityOption);
    (CFG_TUSB_OS, IdentityOption);
    (CFG_TUSB_DEBUG, IdentityOption);
    (CFG_TUD_ENABLED, RoleFlag);
    (CFG_TUH_ENABLED, RoleFlag);
    (CFG_TUSB_MEM_SECTION, MemoryOption);
    (CFG_TUSB_MEM_ALIGN, MemoryOption);
    (CFG_TUD_ENDPOINT0_SIZE, DeviceEndpoint0Size);
    (CFG_TUD_HID_EP_BUFSIZE, DeviceClassBufsize);
    (CFG_TUH_ENUMERATION_BUFSIZE, HostEnumerationBufsize);
    (CFG_TUH_HUB, HostHubCount);
    (CFG_TUH_DEVICE_MAX, HostDeviceCapacity) ]
  ++ map (λ f, (device_class_count f, DeviceClassCount f)) class_families
  ++ map (λ f, (host_class_count f, HostClassCount f)) class_families.

Definition interface_entry_of (n : string) : option interface_entry :=
  (list_to_map interface_table : gmap string interface_entry) !! n.

Definition is_device_class_count (e : interface_entry) : bool :=
  match e with DeviceClassCount _ => true | _ => false end.
Definition is_host_class_count (e : interface_entry) : bool :=
  match e with HostClassCount _ => true | _ => false end.
Definition is_entry (e e' : interface_entry) : bool :=
  match e, e' with
  | DeviceEndpoint0Size, DeviceEndpoint0Size
  | DeviceClassBufsize, DeviceClassBufsize
  | HostEnumerationBufsize, HostEnumerationBufsize
  | HostHubCount, HostHubCount
  | HostDeviceCapacity, HostDeviceCapacity => true
  | _, _ => false
  end.

(** The names the header defines whose entry kind satisfies [p]. *)
Definition exposed_as (p : interface_entry → bool) : list string :=
  filter (λ n, from_option p false (interface_entry_of n) = true)
         (elements header_defines).

(** The names the header defines that are no entry of the interface list. *)
Definition unlisted : list string :=
  filter (λ n, interface_entry_of n = None) (elements header_defines).

(** The counts of the interface list as the specification gives them. *)
Definition spec_interface_counts : Prop :=
  length (exposed_as (is_entry DeviceEndpoint0Size)) = 1%nat ∧
  length (exposed_as is_device_class_count) = 4%nat ∧
  length (exposed_as (is_entry DeviceClassBufsize)) = 1%nat ∧
  length (exposed_as (is_entry HostEnumerationBufsize)) = 1%nat ∧
  length (exposed_as (is_entry HostHubCount)) = 1%nat ∧
  length (exposed_as is_host_class_count) = 3%nat ∧
  length (exposed_as (is_entry HostDeviceCapacity)) = 1%nat.

(** ** The program text the header emits *)

(** Besides its directives the header holds two lines of program text, each
    under an [#ifdef __cplusplus] of its own: line 5 opens an [extern "C"]
    block before the configuration, line 93 closes it after. *)
Inductive text_line : Type :=
  | extern_C_open
  | close_brace.

Definition __cplusplus : string := "__cplusplus".

(** The preprocessor state together with the text put out so far. *)
Record cpp_output : Type := CppOutput {
  state_of : cpp_state;
  text_of : list text_line
}.

Definition text_directive : Type := cpp_output → cpp_output.

Definition seq_text (d1 d2 : text_directive) : text_directive :=
  λ o, d2 (d1 o).
Infix ">+>" := seq_text (at level 61, left associativity).

(** A directive that puts out no text. *)
Definition quiet (d : directive) : text_directive := λ o,
  CppOutput (d (state_of o)) (text_of o).

(** A line of program text. *)
Definition emit (l : text_line) : text_directive := λ o,
  CppOutput (state_of o) (text_of o ++ [l]).

(** [#ifdef n body #endif] and [#ifndef n body #endif] around text. *)
Definition ifdef_text (n : string) (body : text_directive) : text_directive :=
  λ o, if defined n (state_of o) then body o else o.
Definition ifndef_text (n : string) (body : text_directive) : text_directive :=
  λ o, if defined n (state_of o) then o else body o.

(** The whole file, lines 1-96, text included. *)
Definition tusb_config_h_text : text_directive :=
  ifndef_text _TUSB_CONFIG_H_
    (quiet (define _TUSB_CONFIG_H_ REmpty) >+>
     ifdef_text __cplusplus (emit extern_C_open) >+>
     quiet common_configuration >+>
     quiet device_configuration >+>
     quiet host_configuration >+>
     ifdef_text __cplusplus (emit close_brace)).

(** ** What the resolution reads *)

(** Two tables give the options that can be set from outside the same
    values, and have the same platform hints defined. *)
Definition same_inputs (st st' : cpp_state) : Prop :=
  (∀ n, n ∈ overridable → macros st !! n = macros st' !! n) ∧
  (∀ h, h ∈ hints → is_Some (macros st !! h) ↔ is_Some (macros st' !! h)).

(** The MCU profiles the header can select by itself. *)
Definition hint_profiles : list string :=
  [OPT_MCU_SAMD51; OPT_MCU_RP2040; OPT_MCU_ESP32S2; OPT_MCU_NONE].

(** Two builds for SAMD: the hint set to 1, and the hint set to 0 next to an
    unrelated macro. *)
Definition samd_state : cpp_state :=
  CppState {[ ARDUINO_ARCH_SAMD := num 1 ]} [].
Definition samd_zero_state : cpp_state :=
  CppState {[ ARDUINO_ARCH_SAMD := num 0; "F_CPU" := num 120000000 ]} [].

(** A command line that sets the device HID count to 2 and the host HID
    count to the header's own 4. *)
Definition hid_counts_state : cpp_state :=
  CppState {[ CFG_TUD_HID := num 2; CFG_TUH_HID := num 4 ]} [].



(** After the header, the hub count set to 2 and the host HID count to 9. *)
Definition two_hubs_state : cpp_state :=
  define CFG_TUH_HID (num 9)
    (define CFG_TUH_HUB (num 2) (tusb_config_h initial_state)).

(** ** How each directive acts on the table and on the diagnostics *)

Section Directives.
Context (n : string) (r : repl) (st : cpp_state).

Lemma seq_apply (d1 d2 : directive) : (d1 >>> d2) st = d2 (d1 st).
Proof. reflexivity. Qed.

Lemma defined_true : is_Some (macros st !! n) → defined n st = true.
Proof. intros H. unfold defined. by rewrite bool_decide_eq_true. Qed.

Lemma defined_false : macros st !! n = None → defined n st = false.
Proof.
  intros H. unfold defined. rewrite bool_decide_eq_false, H.
  by intros [? ?].
Qed.

Lemma define_lookup_eq : macros (define n r st) !! n = Some r.
Proof. apply lookup_insert_eq. Qed.

Lemma define_lookup_ne k : n ≠ k → macros (define n r st) !! k = macros st !! k.
Proof. intros H. by apply lookup_insert_ne. Qed.

Lemma define_diags :
  diags (define n r st) = diags st ++ redefinition n r (macros st !! n).
Proof. reflexivity. Qed.

Lemma ifndef_define_lookup_eq :
  macros (ifndef n (define n r) st) !! n = Some (default r (macros st !! n)).
Proof.
  unfold ifndef. destruct (macros st !! n) as [v|] eqn:E.
  - rewrite defined_true by (rewrite E; eauto). by rewrite E.
  - rewrite defined_false by done. apply define_lookup_eq.
Qed.

Lemma ifndef_define_lookup_ne k :
  n ≠ k → macros (ifndef n (define n r) st) !! k = macros st !! k.
Proof.
  intros H. unfold ifndef. destruct (defined n st); [done|].
  by apply define_lookup_ne.
Qed.

Lemma ifndef_define_diags : diags (ifndef n (define n r) st) = diags st.
Proof.
  unfold ifndef, defined. case_bool_decide as E; [done|].
  rewrite define_diags. destruct (macros st !! n) as [v|] eqn:E'.
  - destruct E. eauto.
  - simpl. apply app_nil_r.
Qed.

End Directives.

Lemma mcu_block_lookup_eq st :
  macros (mcu_block st) !! CFG_TUSB_MCU
  = Some (default (sym (hint_profile (macros st))) (macros st !! CFG_TUSB_MCU)).
Proof.
  unfold mcu_block, ifndef. destruct (macros st !! CFG_TUSB_MCU) as [v|] eqn:E.
  - rewrite defined_true by (rewrite E; eauto). by rewrite E.
  - rewrite defined_false by done. unfold if_defined, defined, hint_profile.
    repeat case_bool_decide; apply define_lookup_eq.
Qed.

Lemma mcu_block_lookup_ne st k :
  CFG_TUSB_MCU ≠ k → macros (mcu_block st) !! k = macros st !! k.
Proof.
  intros H. unfold mcu_block, ifndef, if_defined.
  repeat (destruct (defined _ st)); try done; by apply define_lookup_ne.
Qed.

Lemma mcu_block_diags st : diags (mcu_block st) = diags st.
Proof.
  unfold mcu_block, ifndef. destruct (macros st !! CFG_TUSB_MCU) as [v|] eqn:E.
  - by rewrite defined_true by (rewrite E; eauto).
  - rewrite defined_false by done. unfold if_defined.
    repeat (destruct (defined _ st)); rewrite define_diags, E; apply app_nil_r.
Qed.

(** Looking a name up in the state a run of directives leaves: skip the
    directives that define other names.  [side] proves the names differ. *)
Ltac skip_other_by side :=
  repeat first
    [ rewrite define_lookup_ne by side
    | rewrite ifndef_define_lookup_ne by side
    | rewrite mcu_block_lookup_ne by side ].

Ltac skip_other := skip_other_by ltac:(compute_done).

(** Enter the include guard and lay the directives out in a row. *)
Ltac enter_header H :=
  unfold tusb_config_h, ifndef at 1;
  rewrite (defined_false _ _ H);
  unfold host_configuration, device_configuration, common_configuration;
  rewrite ?seq_apply.

Ltac in_list H :=
  repeat (apply elem_of_cons in H as [->|H]);
  [..|by apply elem_of_nil in H].

Ltac in_table H :=
  repeat (apply elem_of_cons in H as [H|H]; [inversion H; subst; clear H|]);
  [..|by apply elem_of_nil in H].

(** ** The hint cascade *)

Section HintProfile.
Context (env : gmap string repl).

Lemma hint_profile_samd :
  is_Some (env !! ARDUINO_ARCH_SAMD) → hint_profile env = OPT_MCU_SAMD51.
Proof. intros H. unfold hint_profile. by rewrite bool_decide_eq_true_2. Qed.

Lemma hint_profile_rp2040 :
  env !! ARDUINO_ARCH_SAMD = None → is_Some (env !! ARDUINO_ARCH_RP2040) →
  hint_profile env = OPT_MCU_RP2040.
Proof.
  intros H1 H2. unfold hint_profile.
  rewrite bool_decide_eq_false_2 by (by apply eq_None_not_Some).
  by rewrite bool_decide_eq_true_2.
Qed.

Lemma hint_profile_esp32 :
  env !! ARDUINO_ARCH_SAMD = None → env !! ARDUINO_ARCH_RP2040 = None →
  is_Some (env !! ARDUINO_ARCH_ESP32) →
  hint_profile env = OPT_MCU_ESP32S2.
Proof.
  intros H1 H2 H3. unfold hint_profile.
  rewrite !bool_decide_eq_false_2 by (by apply eq_None_not_Some).
  by rewrite bool_decide_eq_true_2.
Qed.

Lemma hint_profile_none :
  env !! ARDUINO_ARCH_SAMD = None → env !! ARDUINO_ARCH_RP2040 = None →
  env !! ARDUINO_ARCH_ESP32 = None →
  hint_profile env = OPT_MCU_NONE.
Proof.
  intros H1 H2 H3. unfold hint_profile.
  by rewrite !bool_decide_eq_false_2 by (by apply eq_None_not_Some).
Qed.

End HintProfile.

(** ** The header as a whole *)

Lemma header_fixed st0 n r :
  first_inclusion st0 → (n, r) ∈ fixed_table →
  macros (tusb_config_h st0) !! n = Some r.
Proof.
  intros H Hin. enter_header H.
  in_table Hin; skip_other; apply define_lookup_eq.
Qed.

Lemma header_default st0 n r :
  first_inclusion st0 → (n, r) ∈ default_table →
  macros (tusb_config_h st0) !! n = Some (default r (macros st0 !! n)).
Proof.
  intros H Hin. enter_header H.
  in_table Hin; skip_other; rewrite ifndef_define_lookup_eq; by skip_other.
Qed.

Lemma header_mcu st0 :
  first_inclusion st0 →
  macros (tusb_config_h st0) !! CFG_TUSB_MCU
  = Some (default (sym (hint_profile (macros st0))) (macros st0 !! CFG_TUSB_MCU)).
Proof.
  intros H. enter_header H. skip_other. rewrite mcu_block_lookup_eq.
  unfold hint_profile. by skip_other.
Qed.

Lemma header_guard st0 :
  first_inclusion st0 →
  macros (tusb_config_h st0) !! _TUSB_CONFIG_H_ = Some REmpty.
Proof. intros H. enter_header H. skip_other. apply define_lookup_eq. Qed.

(** The header defines every name of [header_names] ... *)
Lemma header_names_defined st0 n :
  first_inclusion st0 → n ∈ header_names →
  is_Some (macros (tusb_config_h st0) !! n).
Proof.
  intros H Hin. unfold header_names, overridable in Hin.
  apply elem_of_cons in Hin as [->|Hin]; [rewrite header_guard; eauto|].
  apply elem_of_cons in Hin as [->|Hin]; [rewrite header_mcu; eauto|].
  apply elem_of_app in Hin as [Hin|Hin];
    apply list_elem_of_fmap in Hin as [[k v] [-> Hin]]; simpl.
  - rewrite (header_default _ _ _ H Hin). eauto.
  - rewrite (header_fixed _ _ _ H Hin). eauto.
Qed.

(** ... and leaves every other name as it found it. *)
Lemma header_untouched st0 n :
  first_inclusion st0 → n ∉ header_names →
  macros (tusb_config_h st0) !! n = macros st0 !! n.
Proof.
  intros H Hn.
  assert (∀ k, k ∈ header_names → k ≠ n) as Hne by (intros k Hk ->; done).
  enter_header H.
  by skip_other_by ltac:(apply Hne; compute_done).
Qed.

(** [header_defines] is the set of names that are defined after the header
    whatever the table it was included with. *)
Lemma elem_of_header_defines n : n ∈ header_defines ↔ n ∈ header_names.
Proof.
  rewrite <- elem_of_elements.
  assert (elements header_defines ⊆ header_names) as H1 by compute_done.
  assert (header_names ⊆ elements header_defines) as H2 by compute_done.
  split; [apply H1 | apply H2].
Qed.

Lemma header_defines_spec n :
  n ∈ header_defines ↔
  ∀ st0, first_inclusion st0 → is_Some (macros (tusb_config_h st0) !! n).
Proof.
  split.
  - intros Hn st0 H. apply header_names_defined; [done|].
    by apply elem_of_header_defines.
  - intros H. apply elem_of_dom. by apply H.
Qed.

Lemma header_diags st0 :
  first_inclusion st0 →
  diags (tusb_config_h st0) = diags st0 ++ fixed_redefinitions (macros st0).
Proof.
  intros H. enter_header H.
  repeat first [ rewrite define_diags | rewrite ifndef_define_diags
               | rewrite mcu_block_diags ].
  skip_other. rewrite H. unfold fixed_redefinitions. simpl.
  rewrite !app_nil_r, <- !app_assoc. reflexivity.
Qed.

Lemma elem_of_redefinition_spelling d n r old :
  d ∈ redefinition n r old ↔
  d = Redefined n ∧ ∃ r', old = Some r' ∧ spelling r' ≠ spelling r.
Proof.
  unfold redefinition. destruct old as [r'|].
  - case_decide as Hs.
    + split; [by intros ?%elem_of_nil|].
      intros [_ (r'' & [= <-] & Hne)]. by destruct Hne.
    + rewrite list_elem_of_singleton. split; [intros ->; eauto|by intros [-> _]].
  - split; [by intros ?%elem_of_nil|]. by intros [_ (r' & ? & _)].
Qed.

Lemma elem_of_redefinition d n r old :
  d ∈ redefinition n r old → d = Redefined n ∧ ∃ r', old = Some r' ∧ r' ≠ r.
Proof.
  intros [-> (r' & -> & Hne)]%elem_of_redefinition_spelling.
  split; [done|]. exists r'. split; [done|]. by intros ->.
Qed.

(** Every diagnostic of the header is a redefinition warning for one of the
    unconditional constants, defined differently beforehand. *)
Lemma header_diags_only_redefinitions st0 d :
  first_inclusion st0 → d ∈ diags (tusb_config_h st0) →
  d ∈ diags st0 ∨
  ∃ n r r', (n, r) ∈ fixed_table ∧ d = Redefined n ∧
            macros st0 !! n = Some r' ∧ r' ≠ r.
Proof.
  intros H. rewrite (header_diags _ H), elem_of_app.
  intros [?|Hd]; [by left|right]. unfold fixed_redefinitions in Hd.
  apply list_elem_of_In, in_flat_map in Hd as [[n r] [Hin Hd]].
  apply list_elem_of_In in Hin, Hd. simpl in Hd.
  apply elem_of_redefinition in Hd as [-> (r' & ? & ?)]. eauto 10.
Qed.

(** With the guard defined the header is skipped. *)
Lemma header_skipped st :
  is_Some (macros st !! _TUSB_CONFIG_H_) → tusb_config_h st = st.
Proof. intros H. unfold tusb_config_h, ifndef. by rewrite defined_true. Qed.

(** A second inclusion changes nothing: every option is resolved once. *)
Lemma header_twice st0 : tusb_config_h (tusb_config_h st0) = tusb_config_h st0.
Proof.
  destruct (macros st0 !! _TUSB_CONFIG_H_) as [v|] eqn:E.
  - unfold tusb_config_h, ifndef.
    by rewrite !(defined_true _ st0) by (rewrite E; eauto).
  - pose proof (header_guard st0 E) as Hg.
    unfold tusb_config_h at 1, ifndef.
    rewrite defined_true; [done|]. rewrite Hg. eauto.
Qed.

(** ** Reading the device capacity *)

Lemma device_max_value env h fuel :
  env !! CFG_TUH_DEVICE_MAX = Some CFG_TUH_DEVICE_MAX_repl →
  env !! CFG_TUH_HUB = Some (num h) →
  0 ≤ h →
  (5 ≤ fuel)%nat →
  eval fuel env [] (EId CFG_TUH_DEVICE_MAX)
  = Some (if Z.eqb (h mod 2 ^ 64) 0 then 1 else 4).
Proof.
  intros Hmax Hhub Hh Hfuel.
  do 5 (destruct fuel as [|fuel]; [lia|]). clear Hfuel.
  cbn [eval]. rewrite bool_decide_eq_false_2 by apply not_elem_of_nil.
  rewrite Hmax. unfold CFG_TUH_DEVICE_MAX_repl.
  rewrite bool_decide_eq_false_2 by compute_done.
  rewrite Hhub. unfold num, integer_constant.
  rewrite (bool_decide_eq_true_2 (0 ≤ h)) by done.
  by destruct (Z.eqb (h mod 2 ^ 64) 0).
Qed.

(** ** The claims *)

(** C1.  The device capacity a consumer reads is decided by the hub count
    and by nothing else.  Take any macro table in which CFG_TUH_DEVICE_MAX is
    defined as the header defines it and CFG_TUH_HUB is the integer constant
    h, every other macro, the header's own constants included, being
    whatever it may: CFG_TUH_DEVICE_MAX evaluates to 4 when h > 0 and to 1
    when h = 0.  A hub count is the value of an integer constant, so it is
    below 2^64. *)
Theorem device_capacity_from_hub_count st0 st h fuel :
  first_inclusion st0 →
  macros st !! CFG_TUH_DEVICE_MAX
  = macros (tusb_config_h st0) !! CFG_TUH_DEVICE_MAX →
  macros st !! CFG_TUH_HUB = Some (num h) →
  (5 ≤ fuel)%nat →
  (0 < h < 2 ^ 64 → value_of fuel st CFG_TUH_DEVICE_MAX = Some 4) ∧
  (h = 0 → value_of fuel st CFG_TUH_DEVICE_MAX = Some 1).
Proof.
  intros H Hmax Hhub Hfuel.
  rewrite (header_fixed st0 CFG_TUH_DEVICE_MAX CFG_TUH_DEVICE_MAX_repl H)
    in Hmax by compute_done.
  split; intros Hh; unfold value_of;
    rewrite (device_max_value _ h) by (done || lia).
  - rewrite Z.mod_small by lia. destruct (Z.eqb_spec h 0); [lia|done].
  - by subst h.
Qed.

(** Scenario 2: hub count 2; the host HID count is changed as well. *)
Lemma device_capacity_from_hub_count_witness :
  first_inclusion initial_state ∧
  macros two_hubs_state !! CFG_TUH_DEVICE_MAX
  = macros (tusb_config_h initial_state) !! CFG_TUH_DEVICE_MAX ∧
  macros two_hubs_state !! CFG_TUH_HUB = Some (num 2) ∧
  (5 ≤ 5)%nat ∧ 0 < 2 < 2 ^ 64 ∧
  value_of 5 two_hubs_state CFG_TUH_DEVICE_MAX = Some 4.
Proof.
  assert (first_inclusion initial_state) as H by reflexivity.
  assert (macros two_hubs_state !! CFG_TUH_DEVICE_MAX
          = macros (tusb_config_h initial_state) !! CFG_TUH_DEVICE_MAX)
    as Hmax by reflexivity.
  assert (macros two_hubs_state !! CFG_TUH_HUB = Some (num 2)) as Hhub
    by reflexivity.
  assert (5 ≤ 5)%nat as Hf by lia.
  assert (0 < 2 < 2 ^ 64) as Hh by lia.
  split; [exact H|]. split; [exact Hmax|]. split; [exact Hhub|].
  split; [exact Hf|]. split; [exact Hh|].
  exact (proj1 (device_capacity_from_hub_count
                  initial_state two_hubs_state 2 5 H Hmax Hhub Hf) Hh).
Defined.

(** A hub count written as 2^64 does not fit the widest integer type: it is
    read as 0, and the capacity is 1. *)
Example hub_count_beyond_64_bits :
  value_of 5 (define CFG_TUH_HUB (num (2 ^ 64)) (tusb_config_h initial_state))
           CFG_TUH_DEVICE_MAX = Some 1.
Proof. reflexivity. Qed.

(** C2.  An option that sits under an [#ifndef] of its own name (MCU, OS,
    debug level, memory section, memory alignment, endpoint-0 size) keeps the
    value it was given from outside, whatever the rest of the table holds,
    the platform hints included. *)
Theorem override_wins st0 n v :
  first_inclusion st0 → n ∈ overridable → macros st0 !! n = Some v →
  macros (tusb_config_h st0) !! n = Some v.
Proof.
  intros H Hin Hv. unfold overridable in Hin.
  apply elem_of_cons in Hin as [->|Hin].
  - by rewrite header_mcu, Hv.
  - apply list_elem_of_fmap in Hin as [[k d] [-> Hin]]. simpl in *.
    by rewrite (header_default _ _ _ H Hin), Hv.
Qed.

(** An MCU given from outside wins over a platform hint that is set. *)
Lemma override_wins_witness :
  first_inclusion
    (CppState {[ CFG_TUSB_MCU := sym OPT_MCU_RP2040;
                 ARDUINO_ARCH_SAMD := num 1 ]} []) ∧
  CFG_TUSB_MCU ∈ overridable ∧
  macros (tusb_config_h
    (CppState {[ CFG_TUSB_MCU := sym OPT_MCU_RP2040;
                 ARDUINO_ARCH_SAMD := num 1 ]} [])) !! CFG_TUSB_MCU
  = Some (sym OPT_MCU_RP2040).
Proof.
  assert (CFG_TUSB_MCU ∈ overridable) as Hin by apply list_elem_of_here.
  split; [reflexivity|]. split; [exact Hin|].
  apply (override_wins _ CFG_TUSB_MCU (sym OPT_MCU_RP2040)); [|exact Hin|];
    reflexivity.
Defined.

(** C3.  With no MCU given from outside, the header maps the SAMD hint to
    OPT_MCU_SAMD51, the RP2040 hint to OPT_MCU_RP2040 and the ESP32 hint to
    OPT_MCU_ESP32S2, each hint being looked at only when the ones before it
    are not set; with no hint set it yields OPT_MCU_NONE.  The header has no
    directive that stops the build: its diagnostics are at most redefinition
    warnings for the unconditional constants. *)
Theorem resolve_platform_hints st0 :
  first_inclusion st0 → macros st0 !! CFG_TUSB_MCU = None →
  (is_Some (macros st0 !! ARDUINO_ARCH_SAMD) →
   macros (tusb_config_h st0) !! CFG_TUSB_MCU = Some (sym OPT_MCU_SAMD51)) ∧
  (macros st0 !! ARDUINO_ARCH_SAMD = None →
   is_Some (macros st0 !! ARDUINO_ARCH_RP2040) →
   macros (tusb_config_h st0) !! CFG_TUSB_MCU = Some (sym OPT_MCU_RP2040)) ∧
  (macros st0 !! ARDUINO_ARCH_SAMD = None →
   macros st0 !! ARDUINO_ARCH_RP2040 = None →
   is_Some (macros st0 !! ARDUINO_ARCH_ESP32) →
   macros (tusb_config_h st0) !! CFG_TUSB_MCU = Some (sym OPT_MCU_ESP32S2)) ∧
  (macros st0 !! ARDUINO_ARCH_SAMD = None →
   macros st0 !! ARDUINO_ARCH_RP2040 = None →
   macros st0 !! ARDUINO_ARCH_ESP32 = None →
   macros (tusb_config_h st0) !! CFG_TUSB_MCU = Some (sym OPT_MCU_NONE) ∧
   diags (tusb_config_h st0) = diags st0 ++ fixed_redefinitions (macros st0)).
Proof.
  intros H Hmcu. rewrite (header_diags _ H), (header_mcu _ H), Hmcu. simpl.
  split; [|split; [|split]].
  - intros ?. by rewrite hint_profile_samd.
  - intros ? ?. by rewrite hint_profile_rp2040.
  - intros ? ? ?. by rewrite hint_profile_esp32.
  - intros ? ? ?. by rewrite hint_profile_none.
Qed.

(** Scenario 4: no hint, nothing given; the header raises no diagnostic. *)
Example no_hint_no_override :
  macros (tusb_config_h initial_state) !! CFG_TUSB_MCU = Some (sym OPT_MCU_NONE)
  ∧ diags (tusb_config_h initial_state) = [].
Proof. split; reflexivity. Qed.

(** A build for RP2040: only that hint is set. *)
Lemma resolve_platform_hints_witness :
  first_inclusion (CppState {[ ARDUINO_ARCH_RP2040 := num 1 ]} []) ∧
  macros (tusb_config_h (CppState {[ ARDUINO_ARCH_RP2040 := num 1 ]} []))
    !! CFG_TUSB_MCU = Some (sym OPT_MCU_RP2040).
Proof.
  split; [reflexivity|].
  refine (proj1 (proj2 (resolve_platform_hints
            (CppState {[ ARDUINO_ARCH_RP2040 := num 1 ]} []) _ _)) _ _).
  - reflexivity.
  - reflexivity.
  - reflexivity.
  - exists (num 1). reflexivity.
Defined.

(** C4.  CFG_TUD_ENABLED and CFG_TUH_ENABLED are both 1 after the header,
    whatever they were defined as before: the two [#define]s are not under
    any [#ifndef]. *)
Theorem role_flags_fixed st0 :
  first_inclusion st0 →
  macros (tusb_config_h st0) !! CFG_TUD_ENABLED = Some (num 1) ∧
  macros (tusb_config_h st0) !! CFG_TUH_ENABLED = Some (num 1).
Proof.
  intros H. split; apply header_fixed; try done; compute_done.
Qed.

(** An attempt to switch both roles off from the command line. *)
Lemma role_flags_fixed_witness :
  first_inclusion
    (CppState {[ CFG_TUD_ENABLED := num 0; CFG_TUH_ENABLED := num 0 ]} []) ∧
  macros (tusb_config_h
    (CppState {[ CFG_TUD_ENABLED := num 0; CFG_TUH_ENABLED := num 0 ]} []))
    !! CFG_TUD_ENABLED = Some (num 1) ∧
  macros (tusb_config_h
    (CppState {[ CFG_TUD_ENABLED := num 0; CFG_TUH_ENABLED := num 0 ]} []))
    !! CFG_TUH_ENABLED = Some (num 1).
Proof.
  split; [reflexivity|].
  apply (role_flags_fixed
    (CppState {[ CFG_TUD_ENABLED := num 0; CFG_TUH_ENABLED := num 0 ]} [])).
  reflexivity.
Defined.

(** C5, as stated: four device-role class counts and three host-role non-hub
    class counts.  The header defines five and four. *)
Lemma spec_interface_counts_fail : ¬ spec_interface_counts.
Proof. intros (_ & H & _). vm_compute in H. discriminate H. Qed.

(** C5, amended.  Among the names the header defines there is one device
    endpoint-0 size, five device class counts (one for each of HID, CDC, MSC,
    MIDI and vendor), one device class buffer size, one host enumeration
    buffer size, one host hub count, four host class counts other than the
    hub's (HID, CDC, MSC and vendor; there is none for MIDI) and one host
    device capacity. *)
Theorem interface_counts :
  length (exposed_as (is_entry DeviceEndpoint0Size)) = 1%nat ∧
  length (exposed_as is_device_class_count) = 5%nat ∧
  length (exposed_as (is_entry DeviceClassBufsize)) = 1%nat ∧
  length (exposed_as (is_entry HostEnumerationBufsize)) = 1%nat ∧
  length (exposed_as (is_entry HostHubCount)) = 1%nat ∧
  length (exposed_as is_host_class_count) = 4%nat ∧
  length (exposed_as (is_entry HostDeviceCapacity)) = 1%nat ∧
  (∀ f, device_class_count f ∈ header_defines) ∧
  (∀ f, host_class_count f ∈ header_defines ↔ f ≠ MIDI).
Proof.
  repeat (split; [vm_compute; reflexivity|]).
  split; intros f; rewrite ?elem_of_header_defines.
  - destruct f; compute_done.
  - destruct f; split; try done; try (intros _; compute_done).
    intros Hin. exfalso. revert Hin. compute_done.
Qed.

(** C6, as stated, fails in a build where the SAMD and the RP2040 hint are
    both set: the header raises no diagnostic. *)
Lemma hint_conflict_not_flagged :
  first_inclusion two_hints_state ∧ hint_conflict two_hints_state ∧
  ¬ raises_diagnostic two_hints_state.
Proof.
  split; [reflexivity|]. split.
  - split; [compute_done|reflexivity].
  - intros Hr. apply Hr. reflexivity.
Qed.

(** C6, amended.  When more than one platform hint is set and no MCU is given
    from outside, the header resolves the MCU by the order of its hint list:
    OPT_MCU_SAMD51 when the SAMD hint is among them, OPT_MCU_RP2040
    otherwise.  No diagnostic reports the conflict: each diagnostic of the
    header was there before or is a redefinition warning for one of the
    unconditional constants. *)
Theorem hint_conflict_resolved_by_order st0 :
  first_inclusion st0 → hint_conflict st0 →
  macros (tusb_config_h st0) !! CFG_TUSB_MCU
  = Some (sym (if bool_decide (is_Some (macros st0 !! ARDUINO_ARCH_SAMD))
               then OPT_MCU_SAMD51 else OPT_MCU_RP2040)) ∧
  ∀ d, d ∈ diags (tusb_config_h st0) →
       d ∈ diags st0 ∨
       ∃ n r r', (n, r) ∈ fixed_table ∧ d = Redefined n ∧
                 macros st0 !! n = Some r' ∧ r' ≠ r.
Proof.
  intros H [Hlen Hmcu]. split.
  - rewrite (header_mcu _ H), Hmcu. simpl. do 2 f_equal.
    case_bool_decide as Hs; [by apply hint_profile_samd|].
    apply hint_profile_rp2040; [by apply eq_None_not_Some|].
    unfold hints_defined, hints in Hlen.
    rewrite !filter_cons, filter_nil in Hlen.
    destruct (decide (is_Some (macros st0 !! ARDUINO_ARCH_SAMD))); [done|].
    destruct (decide (is_Some (macros st0 !! ARDUINO_ARCH_RP2040))); [done|].
    exfalso. destruct (decide _) in Hlen; simpl in Hlen; lia.
  - intros d. by apply header_diags_only_redefinitions.
Qed.

Lemma hint_conflict_resolved_by_order_witness :
  first_inclusion two_hints_state ∧ hint_conflict two_hints_state ∧
  macros (tusb_config_h two_hints_state) !! CFG_TUSB_MCU
  = Some (sym OPT_MCU_SAMD51).
Proof.
  assert (hint_conflict two_hints_state) as Hc
    by (split; [vm_compute; lia|reflexivity]).
  split; [reflexivity|]. split; [exact Hc|].
  exact (proj1 (hint_conflict_resolved_by_order two_hints_state eq_refl Hc)).
Defined.

(** C7.  CFG_TUD_ENDPOINT0_SIZE is 64 when it was not defined before the
    header, and keeps the value it was defined with otherwise. *)
Theorem endpoint0_size st0 :
  first_inclusion st0 →
  (macros st0 !! CFG_TUD_ENDPOINT0_SIZE = None →
   macros (tusb_config_h st0) !! CFG_TUD_ENDPOINT0_SIZE = Some (num 64)) ∧
  (∀ v, macros st0 !! CFG_TUD_ENDPOINT0_SIZE = Some v →
        macros (tusb_config_h st0) !! CFG_TUD_ENDPOINT0_SIZE = Some v).
Proof.
  intros H.
  assert ((CFG_TUD_ENDPOINT0_SIZE, num 64) ∈ default_table) as Hin
    by compute_done.
  rewrite (header_default _ _ _ H Hin).
  split; [intros ->|intros v ->]; reflexivity.
Qed.

(** Scenario 3: the endpoint-0 size is given as 8. *)
Lemma endpoint0_size_witness :
  first_inclusion (CppState {[ CFG_TUD_ENDPOINT0_SIZE := num 8 ]} []) ∧
  macros (tusb_config_h (CppState {[ CFG_TUD_ENDPOINT0_SIZE := num 8 ]} []))
    !! CFG_TUD_ENDPOINT0_SIZE = Some (num 8).
Proof.
  split; [reflexivity|].
  refine (proj2 (endpoint0_size
            (CppState {[ CFG_TUD_ENDPOINT0_SIZE := num 8 ]} []) _) (num 8) _);
    reflexivity.
Defined.

(** C8.  Not defined before the header, CFG_TUSB_OS becomes OPT_OS_NONE,
    CFG_TUSB_DEBUG becomes 0, CFG_TUSB_MEM_SECTION becomes empty and
    CFG_TUSB_MEM_ALIGN becomes the attribute asking for 4 bytes. *)
Theorem defaults_without_override st0 :
  first_inclusion st0 →
  (macros st0 !! CFG_TUSB_OS = None →
   macros (tusb_config_h st0) !! CFG_TUSB_OS = Some (sym OPT_OS_NONE)) ∧
  (macros st0 !! CFG_TUSB_DEBUG = None →
   macros (tusb_config_h st0) !! CFG_TUSB_DEBUG = Some (num 0)) ∧
  (macros st0 !! CFG_TUSB_MEM_SECTION = None →
   macros (tusb_config_h st0) !! CFG_TUSB_MEM_SECTION = Some REmpty) ∧
  (macros st0 !! CFG_TUSB_MEM_ALIGN = None →
   macros (tusb_config_h st0) !! CFG_TUSB_MEM_ALIGN = Some (RAttr (aligned 4)) ∧
   alignment_of (tusb_config_h st0) = Some 4).
Proof.
  intros H. unfold alignment_of.
  rewrite (header_default _ CFG_TUSB_OS (sym OPT_OS_NONE) H) by compute_done.
  rewrite (header_default _ CFG_TUSB_DEBUG (num 0) H) by compute_done.
  rewrite (header_default _ CFG_TUSB_MEM_SECTION REmpty H) by compute_done.
  rewrite (header_default _ CFG_TUSB_MEM_ALIGN (RAttr (aligned 4)) H)
    by compute_done.
  split; [|split; [|split]]; intros ->; [reflexivity..|].
  split; reflexivity.
Qed.

(** Nothing is defined before the header. *)
Lemma defaults_without_override_witness :
  first_inclusion initial_state ∧
  macros (tusb_config_h initial_state) !! CFG_TUSB_OS = Some (sym OPT_OS_NONE) ∧
  macros (tusb_config_h initial_state) !! CFG_TUSB_DEBUG = Some (num 0) ∧
  macros (tusb_config_h initial_state) !! CFG_TUSB_MEM_SECTION = Some REmpty ∧
  alignment_of (tusb_config_h initial_state) = Some 4.
Proof.
  assert (first_inclusion initial_state) as H by reflexivity.
  destruct (defaults_without_override initial_state H)
    as (Hos & Hdebug & Hsection & Halign).
  split; [exact H|].
  split; [apply Hos; reflexivity|].
  split; [apply Hdebug; reflexivity|].
  split; [apply Hsection; reflexivity|].
  apply Halign; reflexivity.
Defined.

(** C9.  The header sets CFG_TUH_HUB to 0, so that CFG_TUH_DEVICE_MAX
    evaluates to 1 after it. *)
Theorem no_hub_capacity st0 fuel :
  first_inclusion st0 → (5 ≤ fuel)%nat →
  macros (tusb_config_h st0) !! CFG_TUH_HUB = Some (num 0) ∧
  value_of fuel (tusb_config_h st0) CFG_TUH_DEVICE_MAX = Some 1.
Proof.
  intros H Hfuel.
  assert (macros (tusb_config_h st0) !! CFG_TUH_HUB = Some (num 0)) as Hhub
    by (apply header_fixed; [done|compute_done]).
  split; [done|].
  unfold value_of. rewrite (device_max_value _ 0); [done| |done..].
  apply header_fixed; [done|compute_done].
Qed.

(** Scenario 1: nothing is defined before the header. *)
Lemma no_hub_capacity_witness :
  first_inclusion initial_state ∧ (5 ≤ 5)%nat ∧
  macros (tusb_config_h initial_state) !! CFG_TUH_HUB = Some (num 0) ∧
  value_of 5 (tusb_config_h initial_state) CFG_TUH_DEVICE_MAX = Some 1.
Proof.
  assert (first_inclusion initial_state) as H by reflexivity.
  assert (5 ≤ 5)%nat as Hf by lia.
  split; [exact H|]. split; [exact Hf|].
  exact (no_hub_capacity initial_state 5 H Hf).
Defined.

(** C10.  CFG_TUD_MAX_SPEED is OPT_MODE_DEFAULT_SPEED after the header,
    whatever it was defined as before.  It is one of the names the header
    defines, and the only one of them besides the include guard that is no
    entry of the interface list. *)
Theorem max_speed_fixed st0 :
  first_inclusion st0 →
  macros (tusb_config_h st0) !! CFG_TUD_MAX_SPEED
  = Some (sym OPT_MODE_DEFAULT_SPEED) ∧
  CFG_TUD_MAX_SPEED ∈ header_defines ∧
  unlisted = [_TUSB_CONFIG_H_; CFG_TUD_MAX_SPEED].
Proof.
  intros H. split; [|split].
  - apply header_fixed; [done|compute_done].
  - apply elem_of_header_defines. compute_done.
  - vm_compute. reflexivity.
Qed.

(** An attempt to ask for another speed from the command line. *)
Lemma max_speed_fixed_witness :
  first_inclusion
    (CppState {[ CFG_TUD_MAX_SPEED := sym "OPT_MODE_FULL_SPEED" ]} []) ∧
  macros (tusb_config_h
    (CppState {[ CFG_TUD_MAX_SPEED := sym "OPT_MODE_FULL_SPEED" ]} []))
    !! CFG_TUD_MAX_SPEED = Some (sym OPT_MODE_DEFAULT_SPEED).
Proof.
  split; [reflexivity|].
  refine (proj1 (max_speed_fixed
    (CppState {[ CFG_TUD_MAX_SPEED := sym "OPT_MODE_FULL_SPEED" ]} []) _)).
  reflexivity.
Defined.

(** ** Further properties of the header *)

Lemma defined_ext n st st' :
  macros st !! n = macros st' !! n → defined n st = defined n st'.
Proof. intros H. unfold defined. by rewrite H. Qed.


Lemma state_of_quiet d o : state_of (quiet d o) = d (state_of o).
Proof. reflexivity. Qed.

Lemma text_of_quiet d o : text_of (quiet d o) = text_of o.
Proof. reflexivity. Qed.

Lemma state_of_ifdef_emit n l o :
  state_of (ifdef_text n (emit l) o) = state_of o.
Proof. unfold ifdef_text. by destruct (defined n (state_of o)). Qed.

Lemma text_of_ifdef_emit n l o :
  text_of (ifdef_text n (emit l) o)
  = text_of o ++ (if defined n (state_of o) then [l] else []).
Proof.
  unfold ifdef_text. destruct (defined n (state_of o)); simpl; [done|].
  by rewrite app_nil_r.
Qed.

(** The text leaves the macro table and the diagnostics alone. *)
Lemma state_of_tusb_config_h_text o :
  state_of (tusb_config_h_text o) = tusb_config_h (state_of o).
Proof.
  unfold tusb_config_h_text, tusb_config_h, ifndef_text, ifndef.
  destruct (defined _TUSB_CONFIG_H_ (state_of o)); [done|].
  unfold seq_text, seq. rewrite state_of_ifdef_emit. simpl.
  by rewrite state_of_ifdef_emit.
Qed.

(** X1.  Including the header a second time changes neither the macro table
    nor the diagnostics, whatever the table of the first inclusion: the
    include guard makes the second pass empty, so no option is resolved
    twice and no constant is reported as redefined. *)
Theorem include_guard_idempotent st :
  tusb_config_h (tusb_config_h st) = tusb_config_h st.
Proof. apply header_twice. Qed.

(** X2.  The header reads and writes only its own names: a macro that is not
    one of the 23 names it has a [#define] for has the same definition, or
    none, after the header as before.  The platform hints are among them. *)
Theorem other_macros_untouched st0 n :
  first_inclusion st0 → n ∉ header_names →
  macros (tusb_config_h st0) !! n = macros st0 !! n.
Proof. apply header_untouched. Qed.

Lemma other_macros_untouched_witness :
  first_inclusion samd_zero_state ∧ (ARDUINO_ARCH_SAMD ∉ header_names) ∧
  macros (tusb_config_h samd_zero_state) !! ARDUINO_ARCH_SAMD = Some (num 0).
Proof.
  assert (ARDUINO_ARCH_SAMD ∉ header_names) as Hn by compute_done.
  split; [reflexivity|]. split; [exact Hn|].
  exact (other_macros_untouched samd_zero_state ARDUINO_ARCH_SAMD eq_refl Hn).
Defined.

(** X3.  The header never undefines a macro, and after it every one of its
    names is defined: the defined names are those defined before together
    with the names of the header. *)
Theorem defined_after_header st0 :
  first_inclusion st0 →
  dom (macros (tusb_config_h st0)) = dom (macros st0) ∪ header_defines.
Proof.
  intros H. apply set_eq. intros n.
  rewrite elem_of_union, !elem_of_dom, elem_of_header_defines.
  destruct (decide (n ∈ header_names)) as [Hin|Hout].
  - pose proof (header_names_defined _ _ H Hin). tauto.
  - rewrite (header_untouched _ _ H Hout). tauto.
Qed.

Lemma defined_after_header_witness :
  first_inclusion samd_zero_state ∧
  dom (macros (tusb_config_h samd_zero_state))
  = dom (macros samd_zero_state) ∪ header_defines.
Proof.
  split; [reflexivity|].
  exact (defined_after_header samd_zero_state eq_refl).
Defined.





(** X6.  The class counts and buffer sizes are not open to setting from
    outside: after the header the device role has 3 HID interfaces and no
    CDC, MSC, MIDI or vendor interface, with HID buffers of 64 bytes; the host
    role has an enumeration buffer of 256 bytes, 4 HID interfaces and no CDC,
    MSC or vendor interface, whatever these names stood for before. *)
Theorem capacity_table_fixed st0 :
  first_inclusion st0 →
  macros (tusb_config_h st0) !! CFG_TUD_HID = Some (num 3) ∧
  macros (tusb_config_h st0) !! CFG_TUD_CDC = Some (num 0) ∧
  macros (tusb_config_h st0) !! CFG_TUD_MSC = Some (num 0) ∧
  macros (tusb_config_h st0) !! CFG_TUD_MIDI = Some (num 0) ∧
  macros (tusb_config_h st0) !! CFG_TUD_VENDOR = Some (num 0) ∧
  macros (tusb_config_h st0) !! CFG_TUD_HID_EP_BUFSIZE = Some (num 64) ∧
  macros (tusb_config_h st0) !! CFG_TUH_ENUMERATION_BUFSIZE = Some (num 256) ∧
  macros (tusb_config_h st0) !! CFG_TUH_CDC = Some (num 0) ∧
  macros (tusb_config_h st0) !! CFG_TUH_HID = Some (num 4) ∧
  macros (tusb_config_h st0) !! CFG_TUH_MSC = Some (num 0) ∧
  macros (tusb_config_h st0) !! CFG_TUH_VENDOR = Some (num 0).
Proof.
  intros H.
  repeat (split; [apply header_fixed; [exact H|compute_done]|]).
  apply header_fixed; [exact H|compute_done].
Qed.

(** The device HID count stays 3 when the command line asks for 2. *)
Lemma capacity_table_fixed_witness :
  first_inclusion hid_counts_state ∧
  macros (tusb_config_h hid_counts_state) !! CFG_TUD_HID = Some (num 3).
Proof.
  split; [reflexivity|].
  exact (proj1 (capacity_table_fixed hid_counts_state eq_refl)).
Defined.

(** X7.  What the header resolves depends on nothing but the values given to
    the six options under [#ifndef] and on which platform hints are defined:
    two tables that agree on these give every name of the header the same
    definition.  The value a hint is defined with is not looked at, and no
    other macro is. *)
Theorem resolution_inputs st st' n :
  first_inclusion st → first_inclusion st' → same_inputs st st' →
  n ∈ header_names →
  macros (tusb_config_h st) !! n = macros (tusb_config_h st') !! n.
Proof.
  intros H H' [Hopt Hhint] Hin. unfold header_names in Hin.
  apply elem_of_cons in Hin as [->|Hin]; [by rewrite !header_guard|].
  apply elem_of_app in Hin as [Hin|Hin].
  - pose proof (Hopt n Hin) as Hn. unfold overridable in Hin.
    apply elem_of_cons in Hin as [->|Hin].
    + rewrite !header_mcu, Hn by done. do 3 f_equal. unfold hint_profile.
      assert (ARDUINO_ARCH_SAMD ∈ hints) as H1 by compute_done.
      assert (ARDUINO_ARCH_RP2040 ∈ hints) as H2 by compute_done.
      assert (ARDUINO_ARCH_ESP32 ∈ hints) as H3 by compute_done.
      rewrite (bool_decide_ext _ _ (Hhint _ H1)).
      rewrite (bool_decide_ext _ _ (Hhint _ H2)).
      by rewrite (bool_decide_ext _ _ (Hhint _ H3)).
    + apply list_elem_of_fmap in Hin as [[k d] [-> Hin]]. simpl in *.
      by rewrite (header_default _ _ _ H Hin), (header_default _ _ _ H' Hin), Hn.
  - apply list_elem_of_fmap in Hin as [[k r] [-> Hin]]. simpl.
    by rewrite (header_fixed _ _ _ H Hin), (header_fixed _ _ _ H' Hin).
Qed.

(** The SAMD hint defined as 0 selects the same MCU as the hint defined
    as 1. *)
Lemma resolution_inputs_witness :
  first_inclusion samd_state ∧ first_inclusion samd_zero_state ∧
  same_inputs samd_state samd_zero_state ∧
  CFG_TUSB_MCU ∈ header_names ∧
  macros (tusb_config_h samd_state) !! CFG_TUSB_MCU
  = macros (tusb_config_h samd_zero_state) !! CFG_TUSB_MCU.
Proof.
  assert (same_inputs samd_state samd_zero_state) as Hs.
  { split.
    - intros n Hin. in_list Hin; reflexivity.
    - intros h Hin. in_list Hin; vm_compute; split; intros [v Hv];
        first [discriminate Hv | eexists; reflexivity]. }
  assert (CFG_TUSB_MCU ∈ header_names) as Hin by compute_done.
  split; [reflexivity|]. split; [reflexivity|]. split; [exact Hs|].
  split; [exact Hin|].
  exact (resolution_inputs samd_state samd_zero_state CFG_TUSB_MCU
           eq_refl eq_refl Hs Hin).
Defined.

(** X8.  With no MCU given from outside the header always ends with
    CFG_TUSB_MCU defined, as one of OPT_MCU_SAMD51, OPT_MCU_RP2040,
    OPT_MCU_ESP32S2 and OPT_MCU_NONE. *)
Theorem mcu_one_of_four st0 :
  first_inclusion st0 → macros st0 !! CFG_TUSB_MCU = None →
  ∃ p, p ∈ hint_profiles ∧
       macros (tusb_config_h st0) !! CFG_TUSB_MCU = Some (sym p).
Proof.
  intros H Hmcu. exists (hint_profile (macros st0)). split.
  - unfold hint_profile. repeat case_bool_decide; compute_done.
  - by rewrite (header_mcu _ H), Hmcu.
Qed.

Lemma mcu_one_of_four_witness :
  first_inclusion samd_zero_state ∧
  macros samd_zero_state !! CFG_TUSB_MCU = None ∧
  ∃ p, p ∈ hint_profiles ∧
       macros (tusb_config_h samd_zero_state) !! CFG_TUSB_MCU = Some (sym p).
Proof.
  split; [reflexivity|]. split; [reflexivity|].
  exact (mcu_one_of_four samd_zero_state eq_refl eq_refl).
Defined.

(** X9.  The two lines of program text come as a pair.  On a first inclusion
    in a C++ translation unit the header puts out the opening of the
    [extern "C"] block and its closing brace, in this order; in a C
    translation unit, and on any later inclusion, it puts out nothing.  No
    directive in between defines or undefines __cplusplus, so the block is
    never left open and never closed without having been opened. *)
Theorem extern_C_balanced o :
  text_of (tusb_config_h_text o)
  = text_of o ++
    (if defined _TUSB_CONFIG_H_ (state_of o) then []
     else if defined __cplusplus (state_of o)
          then [extern_C_open; close_brace]
          else []).
Proof.
  unfold tusb_config_h_text, ifndef_text.
  destruct (defined _TUSB_CONFIG_H_ (state_of o)) eqn:Hg;
    [by rewrite app_nil_r|].
  assert (first_inclusion (state_of o)) as H.
  { unfold defined in Hg. apply bool_decide_eq_false in Hg.
    by apply eq_None_not_Some. }
  assert (__cplusplus ∉ header_names) as Hn by compute_done.
  unfold seq_text. rewrite text_of_ifdef_emit.
  rewrite !text_of_quiet, !state_of_quiet, text_of_ifdef_emit.
  rewrite state_of_ifdef_emit, text_of_quiet, state_of_quiet.
  pose proof (header_untouched _ _ H Hn) as Hu. revert Hu.
  unfold tusb_config_h, ifndef. rewrite Hg. unfold seq. intros Hu.
  rewrite (defined_ext __cplusplus _ (state_of o) Hu).
  rewrite (defined_ext __cplusplus (define _ _ _) (state_of o))
    by (apply define_lookup_ne; compute_done).
  destruct (defined __cplusplus (state_of o)); [|by rewrite !app_nil_r].
  by rewrite <- app_assoc.
Qed.
